(** * FormDataConsumer (ra-core, src/form/FormDataConsumer.tsx)

    A shallow embedding of the two components of the file,
    [FormDataConsumer] and [FormDataConsumerView], and the properties of
    their contract: which argument the render callback receives, when the
    developer warning is emitted, and what the component returns.

    JavaScript values are an inductive type, objects are finite maps from
    property names to values, the render callback is an interaction tree
    over calls to function values, and the closure variable
    [getSourceHasBeenCalled] is threaded explicitly through the run of the
    callback.  A second embedding, [Store], keeps the objects in a store
    and lets the callback write to it, for what the component itself
    writes. *)

From Stdlib Require Import ZArith Ascii String.
From stdpp Require Import gmap strings list fin_maps.

Set Warnings "-register-all".

(** ** JavaScript values *)

Module JS.

(** The values that occur in props, form snapshots and render results.
    Numbers are the integers (plus [NaN]); a React element is the plain
    object React builds for it.  The function values are the [getSource]
    closures of line 66.  [VGetSource] is the closure that the running call
    of the view builds: it captures that call's [source] and that call's
    [getSourceHasBeenCalled], and does not exist before the call builds it.
    [VOtherGetSource] is a closure that another call of the view built (one
    the caller kept from an earlier render, or was handed by an enclosing
    consumer): calling it returns its string and sets the variable of the
    call that built it, not the one of the running call. *)
Inductive value :=
| VUndefined
| VNull
| VBool (b : bool)
| VNum (n : Z)
| VNaN
| VStr (s : string)
| VObj (o : gmap string value)
| VArr (l : list value)
| VGetSource (source : string)
| VOtherGetSource (source : string).

(** How a call or a statement ends: with a value, or with a thrown one. *)
Inductive completion :=
| Normal (v : value)
| Thrown (e : value).

Definition TypeError : value := VStr "TypeError".

(** [typeof v !== 'undefined'] *)
Definition is_defined (v : value) : bool :=
  match v with VUndefined => false | _ => true end.

(** [v == null] *)
Definition is_nullish (v : value) : bool :=
  match v with VUndefined | VNull => true | _ => false end.

(** ToBoolean: [undefined], [null], [false], [0], [NaN] and the empty string
    are falsy, everything else is truthy. *)
Definition truthy (v : value) : bool :=
  match v with
  | VUndefined | VNull | VNaN => false
  | VBool b => b
  | VNum n => negb (n =? 0)%Z
  | VStr s => negb (String.eqb s "")
  | VObj _ | VArr _ | VGetSource _ | VOtherGetSource _ => true
  end.

(** [Object.keys(o)] *)
Definition Object_keys (o : gmap string value) : list string :=
  (map_to_list o).*1.

(** An object literal followed by a spread, [{ ...literal, ...src }]:
    the properties of [src] are assigned last and win. *)
Definition spread (literal src : gmap string value) : gmap string value :=
  src ∪ literal.

(** Reading a property of an object that was destructured or built from
    JSX attributes: a missing property reads as [undefined]. *)
Definition prop (o : gmap string value) (key : string) : value :=
  default VUndefined (o !! key).

(** Canonical array indices: [0], or decimal digits without a leading zero. *)
Definition digit (c : ascii) : option N :=
  let n := N_of_ascii c in
  if (48 <=? n)%N && (n <=? 57)%N then Some (n - 48)%N else None.

Fixpoint digits (s : string) (acc : N) : option N :=
  match s with
  | EmptyString => Some acc
  | String c s' =>
      match digit c with
      | Some d => digits s' (10 * acc + d)%N
      | None => None
      end
  end.

Definition array_index (key : string) : option nat :=
  match key with
  | EmptyString => None
  | String c s' =>
      if Ascii.eqb c "0"%char
      then match s' with EmptyString => Some 0 | _ => None end
      else N.to_nat <$> digits key 0%N
  end.

(** Own properties of a value: the entries of an object, the elements and
    the [length] of an array.  Members inherited from a prototype and the
    members of primitives and functions are not represented. *)
Definition has_own (o : value) (key : string) : bool :=
  match o with
  | VObj m => bool_decide (is_Some (m !! key))
  | VArr l =>
      match array_index key with
      | Some i => bool_decide (i < length l)
      | None => String.eqb key "length"
      end
  | _ => false
  end.

(** Member access [o[key]].  On [undefined] and [null] it throws a
    TypeError ([None]); a property that is not there reads as [undefined]. *)
Definition member (o : value) (key : string) : option value :=
  match o with
  | VUndefined | VNull => None
  | VObj m => Some (default VUndefined (m !! key))
  | VArr l =>
      Some match array_index key with
           | Some i => default VUndefined (l !! i)
           | None =>
               if String.eqb key "length"
               then VNum (Z.of_nat (length l)) else VUndefined
           end
  | _ => Some VUndefined
  end.

End JS.

Import JS.

(** ** lodash/get *)

Module Lodash.

Definition is_separator (c : ascii) : bool :=
  Ascii.eqb c "."%char || Ascii.eqb c "["%char || Ascii.eqb c "]"%char.

Definition flush (cur : option string) : list string :=
  match cur with Some t => [t] | None => [] end.

Definition push (cur : option string) (c : ascii) : option string :=
  Some (default EmptyString cur +:+ String c EmptyString).

(** The segments of a path: the maximal runs of characters other than
    [.], [[] and []]. *)
Fixpoint segments (s : string) (cur : option string) : list string :=
  match s with
  | EmptyString => flush cur
  | String c s' =>
      if is_separator c then flush cur ++ segments s' None
      else segments s' (push cur c)
  end.

(** Modelled from the spec: [lodash/get] is a third-party module, absent
    from src/; the spec calls it the lookup of a dotted/bracketed path in
    the form snapshot.  [stringToPath] splits a path into its segments;
    this covers the paths written with names joined by dots and bare
    bracket indices ([users.0.role], [users[0].role]), not quoted bracket
    keys or empty segments. *)
Definition stringToPath (path : string) : list string :=
  segments path None.

Fixpoint has_dot (s : string) : bool :=
  match s with
  | EmptyString => false
  | String c s' => Ascii.eqb c "."%char || has_dot s'
  end.

(** An opening bracket closed with no bracket in between. *)
Fixpoint has_bracket_pair (s : string) (opened : bool) : bool :=
  match s with
  | EmptyString => false
  | String c s' =>
      if Ascii.eqb c "["%char then has_bracket_pair s' true
      else if Ascii.eqb c "]"%char then opened || has_bracket_pair s' false
      else has_bracket_pair s' opened
  end.

Definition isDeepProp (path : string) : bool :=
  has_dot path || has_bracket_pair path false.

(** Modelled from the spec: lodash's [isKey]; a path that does not look
    deep, or that is itself a property of the object, is one key. *)
Definition isKey (path : string) (object : value) : bool :=
  negb (isDeepProp path) || has_own object path.

(** Modelled from the spec: lodash's [castPath], the keys a path stands
    for in a given object. *)
Definition castPath (path : string) (object : value) : list string :=
  if isKey path object then [path] else stringToPath path.

(** Modelled from the spec: the loop of lodash's [baseGet], which is what
    makes the lookup tolerate missing keys:
    [while (object != null && index < length) object = object[path[index++]]],
    then [index == length ? object : undefined]. *)
Fixpoint baseGet_loop (object : value) (keys : list string) : completion :=
  match keys with
  | [] => Normal object
  | key :: keys' =>
      if is_nullish object then Normal VUndefined
      else match member object key with
           | Some v => baseGet_loop v keys'
           | None => Thrown TypeError
           end
  end.

(** Modelled from the spec: lodash's [baseGet]; an empty list of keys
    leads nowhere. *)
Definition baseGet (object : value) (path : string) : completion :=
  match castPath path object with
  | [] => Normal VUndefined
  | keys => baseGet_loop object keys
  end.

(** Modelled from the spec: [get(object, path)] of lodash, the path lookup
    that yields [undefined] where the path leads nowhere. *)
Definition get (object : value) (path : string) : completion :=
  if is_nullish object then Normal VUndefined else baseGet object path.

(** The chained member access [object[k1][k2]...] without lodash's guard,
    for comparison: it throws as soon as it steps through [undefined]. *)
Fixpoint chain (object : value) (keys : list string) : completion :=
  match keys with
  | [] => Normal object
  | key :: keys' =>
      match member object key with
      | Some v => chain v keys'
      | None => Thrown TypeError
      end
  end.

(** Every key of the path is an own property of the value reached so far. *)
Fixpoint has_path (object : value) (keys : list string) : bool :=
  match keys with
  | [] => true
  | key :: keys' =>
      has_own object key &&
      match member object key with
      | Some v => has_path v keys'
      | None => false
      end
  end.

End Lodash.

Import Lodash.

(** ** The components *)

(** What a render callback does with the argument it is given: it returns
    a node, throws, or calls a function value with a string and goes on
    with what the call returned. *)
Inductive Render :=
| Return (ret : value)
| Throw (e : value)
| Call (f : value) (arg : string) (k : value -> Render).

(** [FormDataConsumerRender]: [(params) => ReactNode]. *)
Definition FormDataConsumerRender := gmap string value -> Render.

(** [ConnectedProps] and [Props]: the render function [children], and the
    other own properties of the props object ([form], [record], [source],
    [formData], [index] and whatever the index signature lets in). *)
Record Props := {
  children : FormDataConsumerRender;
  own : gmap string value
}.

(** What a call of a component leaves behind: the arguments the render
    callback was invoked with, the warnings written to the console, and the
    completion of the call. *)
Record Outcome := {
  rendered : list (gmap string value);
  console : list string;
  result : completion
}.

(** [source] is declared [source?: string]: where the code uses it as a
    path and in the template literal it is a string; other values are
    outside the declared type. *)
Definition as_string (v : value) : string :=
  match v with VStr s => s | _ => EmptyString end.

(** The closure of lines 66-69, as a function of the captured [source],
    its argument and the captured variable [getSourceHasBeenCalled]. *)
Definition getSource (source scopedSource : string)
    (getSourceHasBeenCalled : bool) : bool * value :=
  (true, VStr (source +:+ "." +:+ scopedSource)).

(** [VGetSource s] is the closure of the running call; [mine] is the
    source the running call captured when it built one ([None] if it built
    none).  The closure of a call captures the source of that call, so the
    two agree wherever a [VGetSource] can occur. *)
Definition owns (mine : option string) (source : string) : bool :=
  match mine with
  | Some s => String.eqb s source
  | None => false
  end.

(** Running the render callback.  [mine] is the closure built by the
    running call, if any: calling it updates [getSourceHasBeenCalled];
    a [getSource] closure of another call only returns its string and
    leaves the [getSourceHasBeenCalled] of the running call alone; calling
    anything else is a TypeError. *)
Fixpoint run (mine : option string) (t : Render)
    (getSourceHasBeenCalled : bool) : bool * completion :=
  match t with
  | Return ret => (getSourceHasBeenCalled, Normal ret)
  | Throw e => (getSourceHasBeenCalled, Thrown e)
  | Call f arg k =>
      match f with
      | VGetSource s =>
          if owns mine s
          then let '(called, v) := getSource s arg getSourceHasBeenCalled in
               run mine (k v) called
          else run mine (k (VStr (s +:+ "." +:+ arg))) getSourceHasBeenCalled
      | VOtherGetSource s =>
          run mine (k (VStr (s +:+ "." +:+ arg))) getSourceHasBeenCalled
      | _ => (getSourceHasBeenCalled, Thrown TypeError)
      end
  end.

(** Modelled from the spec: [util/warning] is not under src/; it emits the
    message as a developer warning when the condition holds. *)
Definition warning (condition : bool) (message : string) : list string :=
  if condition then [message] else [].

(** The first paragraph of the message of line 77; the JSX example that
    follows it in the source is left out. *)
Definition getSource_message : string :=
  "You're using a FormDataConsumer inside an ArrayInput and you did not call the getSource function supplied by the FormDataConsumer component. This is required for your inputs to get the proper source.".

(** [const { children, form, formData, source, index, ...rest } = props] *)
Definition rest_of (o : gmap string value) : gmap string value :=
  delete "index" (delete "source" (delete "formData"
    (delete "form" (delete "children" o)))).

(** Lines 75-103: the warning and the returned value, from the index and
    what the run of the callback left. *)
Definition finish (index : value) (args : list (gmap string value))
    (r : bool * completion) : Outcome :=
  let '(getSourceHasBeenCalled, ret) := r in
  match ret with
  | Thrown e => {| rendered := args; console := []; result := Thrown e |}
  | Normal ret =>
      {| rendered := args;
         console :=
           warning (is_defined index && truthy ret
                    && negb getSourceHasBeenCalled) getSource_message;
         result := Normal match ret with VUndefined => VNull | _ => ret end |}
  end.

Definition FormDataConsumerView (props : Props) : Outcome :=
  let formData := prop (own props) "formData" in
  let source := prop (own props) "source" in
  let index := prop (own props) "index" in
  let rest := rest_of (own props) in
  let getSourceHasBeenCalled := false in
  if is_defined index && truthy source then
    match get formData (as_string source) with
    | Thrown e => {| rendered := []; console := []; result := Thrown e |}
    | Normal scopedFormData =>
        let getSource := VGetSource (as_string source) in
        let params :=
          spread {[ "formData" := formData;
                    "scopedFormData" := scopedFormData;
                    "getSource" := getSource ]} rest in
        finish index [params]
          (run (Some (as_string source)) (children props params)
             getSourceHasBeenCalled)
    end
  else
    let params := spread {[ "formData" := formData ]} rest in
    finish index [params]
      (run None (children props params) getSourceHasBeenCalled).

(** The ambient form: what [useWatch()] returns and what [getValues()]
    returns. *)
Record FormContext := {
  useWatch : gmap string value;
  getValues : gmap string value
}.

(** [FormDataConsumer] returns the element
    [<FormDataConsumerView formData={formData} {...props} />]; the result
    is the props of that element. *)
Definition FormDataConsumer (ctx : FormContext) (props : Props) : Props :=
  let formData := useWatch ctx in
  let formData :=
    if (length (Object_keys formData) =? 0)%nat then getValues ctx
    else formData in
  {| children := children props;
     own := spread {[ "formData" := VObj formData ]} (own props) |}.

(** ** Reading a run of the callback *)

(** The completion of the callback, whatever the closure variable holds. *)
Fixpoint returned (t : Render) : completion :=
  match t with
  | Return ret => Normal ret
  | Throw e => Thrown e
  | Call (VGetSource s) arg k => returned (k (VStr (s +:+ "." +:+ arg)))
  | Call (VOtherGetSource s) arg k => returned (k (VStr (s +:+ "." +:+ arg)))
  | Call _ _ _ => Thrown TypeError
  end.

(** The calls the callback makes, in order. *)
Fixpoint calls (t : Render) : list (value * string) :=
  match t with
  | Call f arg k =>
      (f, arg) ::
      match f with
      | VGetSource s => calls (k (VStr (s +:+ "." +:+ arg)))
      | VOtherGetSource s => calls (k (VStr (s +:+ "." +:+ arg)))
      | _ => []
      end
  | _ => []
  end.

Definition is_helper (mine : option string) (f : value) : bool :=
  match f with VGetSource s => owns mine s | _ => false end.

(** The closure built by the running call is among the calls made. *)
Definition invoked (mine : option string) (t : Render) : bool :=
  existsb (fun c => is_helper mine c.1) (calls t).

(** The closure a call of the view builds: none outside scoped mode. *)
Definition helper (props : Props) : option string :=
  if is_defined (prop (own props) "index")
     && truthy (prop (own props) "source")
  then Some (as_string (prop (own props) "source")) else None.

(** [ret === undefined ? null : ret] on a completion. *)
Definition or_null (c : completion) : completion :=
  match c with
  | Normal VUndefined => Normal VNull
  | c => c
  end.

(** The argument a call of the view builds for the render callback. *)
Definition scopedFormData_of (formData : value) (source : string) : value :=
  match get formData source with
  | Normal v => v
  | Thrown _ => VUndefined
  end.

Definition literal_of (props : Props) : gmap string value :=
  let formData := prop (own props) "formData" in
  let source := as_string (prop (own props) "source") in
  match helper props with
  | Some _ =>
      {[ "formData" := formData;
         "scopedFormData" := scopedFormData_of formData source;
         "getSource" := VGetSource source ]}
  | None => {[ "formData" := formData ]}
  end.

Definition params_of (props : Props) : gmap string value :=
  spread (literal_of props) (rest_of (own props)).

(** The claim of the scoped lookup, as the spec words it: the callback
    receives, under [scopedFormData], the lookup of [source] in [formData]. *)
Definition receives_scoped_lookup (props : Props) (source : string) : Prop :=
  exists params scoped,
    rendered (FormDataConsumerView props) = [params] /\
    get (prop (own props) "formData") source = Normal scoped /\
    params !! "scopedFormData" = Some scoped.

(** The snapshot the spec lets [FormDataConsumer] resolve: the default
    values when the live values have zero keys, the live values otherwise. *)
Definition snapshot (ctx : FormContext) : gmap string value :=
  if bool_decide (size (useWatch ctx) = 0) then getValues ctx
  else useWatch ctx.

(** The claim of the fallback, as the spec words it: the [formData] passed
    down to the view is the resolved snapshot. *)
Definition passes_snapshot (ctx : FormContext) (props : Props) : Prop :=
  prop (own (FormDataConsumer ctx props)) "formData" = VObj (snapshot ctx).

(** ** Sample inputs *)

Definition nested_abc : value :=
  VObj {[ "a" := VObj {[ "b" := VObj {[ "c" := VNum 1 ]} ]} ]}.

Definition show_scoped : FormDataConsumerRender :=
  fun params => Return (prop params "scopedFormData").

Definition scoped_ab : Props :=
  {| children := show_scoped;
     own := {[ "formData" := nested_abc; "source" := VStr "a.b";
               "index" := VNum 0; "resource" := VStr "posts" ]} |}.

Definition shadowed_ab : Props :=
  {| children := show_scoped;
     own := {[ "formData" := nested_abc; "source" := VStr "a.b";
               "index" := VNum 0; "scopedFormData" := VNum 42 ]} |}.

Definition show_formData : FormDataConsumerRender :=
  fun params => Return (prop params "formData").

Definition text_input : value :=
  VObj {[ "type" := VStr "TextInput";
          "props" := VObj {[ "source" := VStr "email" ]} ]}.

Definition first_render : FormContext :=
  {| useWatch := ∅; getValues := {[ "title" := VStr "Hello" ]} |}.

Definition edited : FormContext :=
  {| useWatch := {[ "title" := VStr "Draft" ]};
     getValues := {[ "title" := VStr "Hello" ]} |}.

Definition plain : Props :=
  {| children := show_formData; own := {[ "resource" := VStr "posts" ]} |}.

Definition own_formData : Props :=
  {| children := show_formData;
     own := {[ "formData" := VObj {[ "z" := VNum 9 ]} ]} |}.

Definition source_only : Props :=
  {| children := fun _ => Return text_input;
     own := {[ "formData" := nested_abc; "source" := VStr "a.b";
               "form" := VStr "post_edit"; "resource" := VStr "posts" ]} |}.

Definition ask_role : FormDataConsumerRender :=
  fun params => Call (prop params "getSource") "role" Return.

Definition users_0 : Props :=
  {| children := ask_role;
     own := {[ "formData" :=
                 VObj {[ "users" := VArr [VObj {[ "name" := VStr "Ann" ]}] ]};
               "source" := VStr "users.0"; "index" := VNum 0 ]} |}.

Definition index_only : Props :=
  {| children := fun _ => Return text_input;
     own := {[ "formData" := nested_abc; "index" := VNum 0 ]} |}.

Definition throwing : Props :=
  {| children := fun _ => Throw (VStr "boom");
     own := {[ "formData" := nested_abc; "index" := VNum 0 ]} |}.

Definition team : value :=
  VObj {[ "users" :=
            VArr [VObj {[ "name" := VStr "Ann"; "role" := VStr "admin" ]}] ]}.

Definition in_iterator : Props :=
  {| children := show_scoped;
     own := {[ "source" := VStr "title"; "index" := VNum 0 ]} |}.

(** [<Type {...config} />]: the type and the props of the element that
    JSX builds; its [key] and [ref] are left out. *)
Definition createElement (type : string) (config : gmap string value) : value :=
  VObj {[ "type" := VStr type; "props" := VObj config ]}.

(** The render function of the first example of the doc comment (lines
    18-20):
    [({ formData, ...rest }) =>
       formData.hasEmail && <TextInput source="email" {...rest} />]. *)
Definition PostEdit_render : FormDataConsumerRender :=
  fun params =>
    let formData := prop params "formData" in
    let rest := delete "formData" params in
    match member formData "hasEmail" with
    | None => Throw TypeError
    | Some hasEmail =>
        if truthy hasEmail
        then Return (createElement "TextInput"
                       (spread {[ "source" := VStr "email" ]} rest))
        else Return hasEmail
    end.

Definition with_email : FormContext :=
  {| useWatch := {[ "hasEmail" := VBool true ]}; getValues := ∅ |}.

Definition stale_caller : Props :=
  {| children :=
       fun _ => Call (VOtherGetSource "a.b") "c" (fun _ => Return text_input);
     own := {[ "formData" := nested_abc; "source" := VStr "a.b";
               "index" := VNum 0 ]} |}.

(** ** The components over a store *)

(** The same two components with object identity: objects live in a store
    and values refer to them, so that what the component writes, and which
    object it hands on, can be stated. *)
Module Store.

Definition loc := positive.

(** A value is a primitive, a reference to an object (or array: an object
    whose keys are the indices) of the store, or a [getSource] closure, of
    the running call or of another one. *)
Inductive val :=
| Undefined
| Null
| Bool (b : bool)
| Num (n : Z)
| NaN
| Str (s : string)
| Ref (l : loc)
| GetSource (source : string)
| OtherGetSource (source : string).

Inductive completion :=
| Normal (v : val)
| Thrown (e : val).

Definition TypeError : val := Str "TypeError".

Definition is_defined (v : val) : bool :=
  match v with Undefined => false | _ => true end.

Definition is_nullish (v : val) : bool :=
  match v with Undefined | Null => true | _ => false end.

Definition truthy (v : val) : bool :=
  match v with
  | Undefined | Null | NaN => false
  | Bool b => b
  | Num n => negb (n =? 0)%Z
  | Str s => negb (String.eqb s "")
  | Ref _ | GetSource _ | OtherGetSource _ => true
  end.

Definition Object_keys (o : gmap string val) : list string :=
  (map_to_list o).*1.

Definition spread (literal src : gmap string val) : gmap string val :=
  src ∪ literal.

Definition prop (o : gmap string val) (key : string) : val :=
  default Undefined (o !! key).

Definition as_string (v : val) : string :=
  match v with Str s => s | _ => EmptyString end.

(** The object a reference denotes. *)
Definition deref (h : gmap loc (gmap string val)) (l : loc) : gmap string val :=
  default ∅ (h !! l).

(** A new object: it is stored at a location the store does not use. *)
Definition alloc (h : gmap loc (gmap string val)) (o : gmap string val) :
    loc * gmap loc (gmap string val) :=
  let l := fresh (dom h) in (l, <[l := o]> h).

Definition has_own (h : gmap loc (gmap string val)) (o : val) (key : string) : bool :=
  match o with
  | Ref l => bool_decide (is_Some (deref h l !! key))
  | _ => false
  end.

(** Member access [o[key]]: a read of the store. *)
Definition member (h : gmap loc (gmap string val)) (o : val) (key : string) :
    option val :=
  match o with
  | Undefined | Null => None
  | Ref l => Some (prop (deref h l) key)
  | _ => Some Undefined
  end.

(** Modelled from the spec: lodash's [isKey], over the store. *)
Definition isKey (h : gmap loc (gmap string val)) (path : string) (object : val) : bool :=
  negb (isDeepProp path) || has_own h object path.

(** Modelled from the spec: lodash's [castPath], over the store. *)
Definition castPath (h : gmap loc (gmap string val)) (path : string) (object : val) :
    list string :=
  if isKey h path object then [path] else stringToPath path.

(** Modelled from the spec: the loop of lodash's [baseGet]; it only reads. *)
Fixpoint baseGet_loop (h : gmap loc (gmap string val)) (object : val)
    (keys : list string) : completion :=
  match keys with
  | [] => Normal object
  | key :: keys' =>
      if is_nullish object then Normal Undefined
      else match member h object key with
           | Some v => baseGet_loop h v keys'
           | None => Thrown TypeError
           end
  end.

(** Modelled from the spec: lodash's [baseGet], over the store. *)
Definition baseGet (h : gmap loc (gmap string val)) (object : val) (path : string) :
    completion :=
  match castPath h path object with
  | [] => Normal Undefined
  | keys => baseGet_loop h object keys
  end.

(** Modelled from the spec: [get(object, path)] of lodash, over the store:
    the value found is the one stored, a reference where it is an object. *)
Definition get (h : gmap loc (gmap string val)) (object : val) (path : string) :
    completion :=
  if is_nullish object then Normal Undefined else baseGet h object path.

(** What a render callback does: it may write to the store as it likes;
    each node carries the store as the callback has left it by then. *)
Inductive Render :=
| Return (h : gmap loc (gmap string val)) (ret : val)
| Throw (h : gmap loc (gmap string val)) (e : val)
| Call (h : gmap loc (gmap string val)) (f : val) (arg : string)
       (k : val -> Render).

(** The callback is given the store and its argument. *)
Definition FormDataConsumerRender :=
  gmap loc (gmap string val) -> val -> Render.

Record Props := {
  children : FormDataConsumerRender;
  own : gmap string val
}.

(** The store and the argument with which the callback was invoked, the
    store when the component returns, the warnings, and the completion. *)
Record Outcome := {
  at_call : gmap loc (gmap string val);
  argument : val;
  after : gmap loc (gmap string val);
  console : list string;
  result : completion
}.

Definition getSource (source scopedSource : string)
    (getSourceHasBeenCalled : bool) : bool * val :=
  (true, Str (source +:+ "." +:+ scopedSource)).

Fixpoint run (mine : option string) (t : Render)
    (getSourceHasBeenCalled : bool) :
    bool * gmap loc (gmap string val) * completion :=
  match t with
  | Return h ret => (getSourceHasBeenCalled, h, Normal ret)
  | Throw h e => (getSourceHasBeenCalled, h, Thrown e)
  | Call h f arg k =>
      match f with
      | GetSource s =>
          if owns mine s
          then let '(called, v) := getSource s arg getSourceHasBeenCalled in
               run mine (k v) called
          else run mine (k (Str (s +:+ "." +:+ arg))) getSourceHasBeenCalled
      | OtherGetSource s =>
          run mine (k (Str (s +:+ "." +:+ arg))) getSourceHasBeenCalled
      | _ => (getSourceHasBeenCalled, h, Thrown TypeError)
      end
  end.

Definition rest_of (o : gmap string val) : gmap string val :=
  delete "index" (delete "source" (delete "formData"
    (delete "form" (delete "children" o)))).

Definition finish (index : val) (h : gmap loc (gmap string val)) (params : val)
    (r : bool * gmap loc (gmap string val) * completion) : Outcome :=
  let '(getSourceHasBeenCalled, h', ret) := r in
  match ret with
  | Thrown e =>
      {| at_call := h; argument := params; after := h';
         console := []; result := Thrown e |}
  | Normal ret =>
      {| at_call := h; argument := params; after := h';
         console :=
           warning (is_defined index && truthy ret
                    && negb getSourceHasBeenCalled) getSource_message;
         result := Normal match ret with Undefined => Null | _ => ret end |}
  end.

(** [FormDataConsumerView]: the rest of the props is copied into the object
    literal of the argument, which is the one object the component creates
    and writes. *)
Definition FormDataConsumerView (h : gmap loc (gmap string val))
    (props : Props) : Outcome :=
  let formData := prop (own props) "formData" in
  let source := prop (own props) "source" in
  let index := prop (own props) "index" in
  let rest := rest_of (own props) in
  let getSourceHasBeenCalled := false in
  if is_defined index && truthy source then
    match get h formData (as_string source) with
    | Thrown e =>
        {| at_call := h; argument := Undefined; after := h;
           console := []; result := Thrown e |}
    | Normal scopedFormData =>
        let getSource := GetSource (as_string source) in
        let '(params, h') :=
          alloc h (spread {[ "formData" := formData;
                             "scopedFormData" := scopedFormData;
                             "getSource" := getSource ]} rest) in
        finish index h' (Ref params)
          (run (Some (as_string source)) (children props h' (Ref params))
             getSourceHasBeenCalled)
    end
  else
    let '(params, h') := alloc h (spread {[ "formData" := formData ]} rest) in
    finish index h' (Ref params)
      (run None (children props h' (Ref params)) getSourceHasBeenCalled).

(** The objects that [useWatch()] and [getValues()] return. *)
Record FormContext := {
  useWatch : loc;
  getValues : loc
}.

(** [FormDataConsumer]: the props of the element it returns. *)
Definition FormDataConsumer (h : gmap loc (gmap string val))
    (ctx : FormContext) (props : Props) : Props :=
  let formData := useWatch ctx in
  let formData :=
    if (length (Object_keys (deref h formData)) =? 0)%nat then getValues ctx
    else formData in
  {| children := children props;
     own := spread {[ "formData" := Ref formData ]} (own props) |}.

(** The store as the callback leaves it. *)
Fixpoint left_by (t : Render) : gmap loc (gmap string val) :=
  match t with
  | Return h _ => h
  | Throw h _ => h
  | Call _ (GetSource s) arg k => left_by (k (Str (s +:+ "." +:+ arg)))
  | Call _ (OtherGetSource s) arg k => left_by (k (Str (s +:+ "." +:+ arg)))
  | Call h _ _ _ => h
  end.

Definition helper (props : Props) : option string :=
  if is_defined (prop (own props) "index")
     && truthy (prop (own props) "source")
  then Some (as_string (prop (own props) "source")) else None.

Definition scopedFormData_of (h : gmap loc (gmap string val)) (formData : val)
    (source : string) : val :=
  match get h formData source with
  | Normal v => v
  | Thrown _ => Undefined
  end.

(** The object the view creates for the callback. *)
Definition params_of (h : gmap loc (gmap string val)) (props : Props) :
    gmap string val :=
  let formData := prop (own props) "formData" in
  let source := as_string (prop (own props) "source") in
  match helper props with
  | Some _ =>
      spread {[ "formData" := formData;
                "scopedFormData" := scopedFormData_of h formData source;
                "getSource" := GetSource source ]} (rest_of (own props))
  | None => spread {[ "formData" := formData ]} (rest_of (own props))
  end.

(** The snapshot of the form context that [FormDataConsumer] resolves. *)
Definition snapshot (h : gmap loc (gmap string val)) (ctx : FormContext) : loc :=
  if bool_decide (deref h (useWatch ctx) = ∅) then getValues ctx
  else useWatch ctx.

(** The claim of the untouched snapshot, as the spec words it: the object
    the render callback receives under [formData] is the one the form
    context supplied. *)
Definition receives_host_snapshot (h : gmap loc (gmap string val))
    (ctx : FormContext) (props : Props) : Prop :=
  let out := FormDataConsumerView h (FormDataConsumer h ctx props) in
  exists params,
    argument out = Ref params /\
    (prop (deref (at_call out) params) "formData" = Ref (useWatch ctx) \/
     prop (deref (at_call out) params) "formData" = Ref (getValues ctx)).

(** A form with one watched field, its default values, and an object of
    the caller's own. *)
Definition form_store : gmap loc (gmap string val) :=
  {[ 1%positive := {[ "title" := Str "Draft" ]};
     2%positive := {[ "title" := Str "Hello" ]};
     3%positive := {[ "z" := Num 9 ]} ]}.

Definition edited : FormContext :=
  {| useWatch := 1%positive; getValues := 2%positive |}.

(** The object behind a value, for a callback that reads its argument. *)
Definition object_of (h : gmap loc (gmap string val)) (v : val) : gmap string val :=
  match v with Ref l => deref h l | _ => ∅ end.

Definition show_formData : FormDataConsumerRender :=
  fun h params => Return h (prop (object_of h params) "formData").

(** A callback that writes to the snapshot it is given: the write is the
    callback's, not the component's. *)
Definition scribble : FormDataConsumerRender :=
  fun h params =>
    match prop (object_of h params) "formData" with
    | Ref l => Return (<[l := {[ "title" := Str "Scribbled" ]}]> h) Null
    | _ => Return h Null
    end.

Definition scribbler : Props :=
  {| children := scribble;
     own := {[ "formData" := Ref 1%positive; "resource" := Str "posts" ]} |}.

Definition plain : Props :=
  {| children := show_formData; own := {[ "resource" := Str "posts" ]} |}.

Definition own_formData : Props :=
  {| children := show_formData;
     own := {[ "formData" := Ref 3%positive ]} |}.

End Store.

(** Membership of a literal name in a literal list of names. *)
Ltac named := apply (bool_decide_unpack _); vm_compute; exact I.
Ltac not_named := apply (proj1 (bool_decide_eq_false _)); vm_compute; reflexivity.

(** ** The path lookup *)

Section Lookup.

Lemma member_defined (o : value) (key : string) :
  is_nullish o = false -> exists v, member o key = Some v.
Proof. destruct o; simpl; intros H; try discriminate; eauto. Qed.

Lemma member_not_own (o : value) (key : string) :
  is_nullish o = false -> has_own o key = false ->
  member o key = Some VUndefined.
Proof.
  destruct o as [| | | | | |m|l| |]; simpl; intros Hn Ho;
    try discriminate; try reflexivity.
  - apply bool_decide_eq_false in Ho.
    destruct (m !! key) eqn:E; [exfalso; apply Ho; eauto | reflexivity].
  - destruct (array_index key) as [i|].
    + apply bool_decide_eq_false in Ho.
      rewrite (lookup_ge_None_2 l i) by lia. reflexivity.
    + rewrite Ho. reflexivity.
Qed.

Lemma baseGet_loop_total (keys : list string) :
  forall o, exists v, baseGet_loop o keys = Normal v.
Proof.
  induction keys as [|key keys IH]; intros o; simpl; [eauto|].
  destruct (is_nullish o) eqn:Hn; [eauto|].
  destruct (member_defined o key Hn) as [v ->]. apply IH.
Qed.

Lemma baseGet_loop_missing (keys : list string) :
  forall o, has_path o keys = false -> baseGet_loop o keys = Normal VUndefined.
Proof.
  induction keys as [|key keys IH]; intros o; simpl; [discriminate|].
  intros Hp. destruct (is_nullish o) eqn:Hn; [reflexivity|].
  destruct (has_own o key) eqn:Ho; simpl in Hp.
  - destruct (member_defined o key Hn) as [v Hv]. rewrite Hv in *.
    now apply IH.
  - rewrite (member_not_own o key Hn Ho).
    destruct keys; reflexivity.
Qed.

Lemma get_total (o : value) (path : string) :
  exists v, get o path = Normal v.
Proof.
  unfold get, baseGet. destruct (is_nullish o); [eauto|].
  destruct (castPath path o) as [|key keys]; [eauto|].
  apply baseGet_loop_total.
Qed.

Lemma get_scopedFormData_of (o : value) (path : string) :
  get o path = Normal (scopedFormData_of o path).
Proof.
  unfold scopedFormData_of. destruct (get_total o path) as [v ->]. reflexivity.
Qed.

End Lookup.

(** ** Runs of the render callback *)

Section Runs.

Variable mine : option string.

Lemma run_returned (t : Render) :
  forall called, (run mine t called).2 = returned t.
Proof.
  induction t as [ret|e|f arg k IH]; intros called; simpl; try reflexivity.
  destruct f; try reflexivity; [|apply IH].
  destruct (owns mine source); simpl; apply IH.
Qed.

Lemma run_called (t : Render) :
  forall called, (run mine t called).1 = called || invoked mine t.
Proof.
  unfold invoked.
  induction t as [ret|e|f arg k IH]; intros called; simpl;
    try (now rewrite orb_false_r).
  destruct f; simpl; try (now rewrite orb_false_r); [|apply IH].
  destruct (owns mine source) eqn:E; simpl; rewrite IH.
  - now rewrite orb_true_r.
  - reflexivity.
Qed.

End Runs.

Lemma invoked_None (t : Render) : invoked None t = false.
Proof.
  apply not_true_is_false. intros H.
  apply existsb_exists in H as ([f arg] & _ & Hf).
  destruct f; discriminate.
Qed.

Lemma run_None_called (t : Render) (called : bool) :
  (run None t called).1 = called.
Proof. rewrite run_called, invoked_None. apply orb_false_r. Qed.

(** ** The view, step by step *)

Lemma View_unfold (props : Props) :
  FormDataConsumerView props =
  finish (prop (own props) "index") [params_of props]
    (run (helper props) (children props (params_of props)) false).
Proof.
  unfold FormDataConsumerView, params_of, literal_of, helper.
  destruct (is_defined _ && truthy _); [|reflexivity].
  rewrite get_scopedFormData_of. reflexivity.
Qed.

Lemma View_rendered (props : Props) :
  rendered (FormDataConsumerView props) = [params_of props].
Proof.
  rewrite View_unfold.
  destruct (run _ _ _) as [called [ret|e]]; reflexivity.
Qed.

Lemma View_result (props : Props) :
  result (FormDataConsumerView props) =
  or_null (returned (children props (params_of props))).
Proof.
  rewrite View_unfold.
  rewrite <- (run_returned (helper props) _ false).
  destruct (run _ _ _) as [called [ret|e]]; simpl; [|reflexivity].
  destruct ret; reflexivity.
Qed.

Lemma View_console (props : Props) :
  console (FormDataConsumerView props) =
  match returned (children props (params_of props)) with
  | Normal ret =>
      warning (is_defined (prop (own props) "index") && truthy ret
               && negb (invoked (helper props) (children props (params_of props))))
        getSource_message
  | Thrown _ => []
  end.
Proof.
  rewrite View_unfold.
  rewrite <- (run_returned (helper props) _ false).
  pose proof (run_called (helper props) (children props (params_of props)) false) as Hc.
  destruct (run _ _ _) as [called [ret|e]]; simpl in *; [|reflexivity].
  now rewrite Hc.
Qed.

Lemma rest_of_lookup (o : gmap string value) (key : string) :
  rest_of o !! key =
  if bool_decide (key ∈ ["children"; "form"; "formData"; "source"; "index"])
  then None else o !! key.
Proof.
  unfold rest_of. case_bool_decide as H.
  - repeat (apply elem_of_cons in H as [->|H];
            [by repeat (rewrite lookup_delete_eq || rewrite lookup_delete_ne by done)|]).
    by apply elem_of_nil in H.
  - repeat (rewrite lookup_delete_ne; [|intros <-; apply H; named]).
    reflexivity.
Qed.

Lemma params_of_lookup_formData (props : Props) :
  params_of props !! "formData" = Some (prop (own props) "formData").
Proof.
  unfold params_of, literal_of, spread. destruct (helper props);
    rewrite lookup_union_r by (by rewrite rest_of_lookup);
    by simplify_map_eq.
Qed.

(** ** The scoped lookup handed to the callback *)

Example scoped_ab_receives :
  exists params,
    rendered (FormDataConsumerView scoped_ab) = [params] /\
    params !! "scopedFormData" = Some (VObj {[ "c" := VNum 1 ]}) /\
    result (FormDataConsumerView scoped_ab) = Normal (VObj {[ "c" := VNum 1 ]}).
Proof. eexists. repeat split; vm_compute; reflexivity. Qed.

(** C1, as stated, fails: with [index] defined and [source = "a.b"], a
    pass-through property named [scopedFormData] is spread last and reaches
    the callback in place of the lookup ([42] instead of [{c: 1}]). *)
Lemma scoped_lookup_shadowed :
  is_defined (prop (own shadowed_ab) "index") = true /\
  prop (own shadowed_ab) "source" = VStr "a.b" /\
  "a.b" <> EmptyString /\
  ~ receives_scoped_lookup shadowed_ab "a.b".
Proof.
  repeat split; try (vm_compute; congruence).
  intros (params & scoped & Hr & Hg & Hp).
  rewrite View_rendered in Hr. injection Hr as <-.
  vm_compute in Hg. vm_compute in Hp. congruence.
Qed.

(** C1 (amended): when [index] is defined, [source] is a non-empty string
    and no pass-through property is named [scopedFormData], the render
    callback is invoked with [scopedFormData] equal to the path lookup of
    [source] in [formData]. *)
Theorem scoped_lookup_received (props : Props) (source : string) :
  is_defined (prop (own props) "index") = true ->
  prop (own props) "source" = VStr source ->
  source <> EmptyString ->
  own props !! "scopedFormData" = None ->
  receives_scoped_lookup props source.
Proof.
  intros Hi Hs Hne Hfree.
  exists (params_of props), (scopedFormData_of (prop (own props) "formData") source).
  split; [apply View_rendered|]. split; [apply get_scopedFormData_of|].
  unfold params_of, literal_of, helper. rewrite Hi, Hs. simpl.
  destruct (String.eqb_spec source ""); [contradiction|]. simpl.
  unfold spread. rewrite lookup_union_r.
  - by simplify_map_eq.
  - rewrite rest_of_lookup. by case_bool_decide.
Qed.

Lemma scoped_lookup_received_witness :
  (is_defined (prop (own scoped_ab) "index") = true /\
   prop (own scoped_ab) "source" = VStr "a.b" /\
   "a.b" <> EmptyString /\
   own scoped_ab !! "scopedFormData" = None) /\
  exists params,
    rendered (FormDataConsumerView scoped_ab) = [params] /\
    params !! "scopedFormData" = Some (VObj {[ "c" := VNum 1 ]}).
Proof.
  assert (H1 : is_defined (prop (own scoped_ab) "index") = true) by reflexivity.
  assert (H2 : prop (own scoped_ab) "source" = VStr "a.b") by reflexivity.
  assert (H3 : "a.b" <> EmptyString) by discriminate.
  assert (H4 : own scoped_ab !! "scopedFormData" = None) by reflexivity.
  split; [tauto|].
  destruct (scoped_lookup_received scoped_ab "a.b" H1 H2 H3 H4)
    as (params & scoped & Hr & Hg & Hp).
  exists params. split; [exact Hr|].
  assert (Hv : get (prop (own scoped_ab) "formData") "a.b" =
               Normal (VObj {[ "c" := VNum 1 ]})) by reflexivity.
  rewrite Hp. congruence.
Defined.

(** ** The warning *)

(** C2: the warning is emitted if and only if [index] is defined, the
    render callback returned a non-empty (truthy) result and the [getSource]
    closure was not invoked during the call; it is then emitted exactly
    once, and the returned result is the callback's (with [undefined]
    replaced by [null]) whether or not the warning fired. *)
Theorem warning_iff_helper_unused (props : Props) :
  exists params,
    rendered (FormDataConsumerView props) = [params] /\
    (console (FormDataConsumerView props) <> [] <->
       is_defined (prop (own props) "index") = true /\
       (exists ret, returned (children props params) = Normal ret /\
                    truthy ret = true) /\
       invoked (helper props) (children props params) = false) /\
    (console (FormDataConsumerView props) = [] \/
     console (FormDataConsumerView props) = [getSource_message]) /\
    result (FormDataConsumerView props) =
      or_null (returned (children props params)).
Proof.
  exists (params_of props).
  split; [apply View_rendered|].
  rewrite View_console, View_result.
  destruct (returned _) as [ret|e]; simpl.
  - destruct (is_defined _), (truthy ret) eqn:Ht, (invoked _ _); simpl;
      (split; [|split; [auto|reflexivity]]); split;
      try congruence; try (intros (? & ? & ?); congruence);
      try (intros (? & (r & Hr & Hr') & ?); congruence).
    intros _. repeat split; eauto.
  - split; [|split; [auto|reflexivity]].
    split; [congruence|]. intros (_ & (r & Hr & _) & _). discriminate.
Qed.

(** A [getSource] kept from another call does not count: it sets the
    variable of the call that built it, and the running call still warns. *)
Example stale_getSource_still_warns :
  console (FormDataConsumerView stale_caller) = [getSource_message] /\
  result (FormDataConsumerView stale_caller) = Normal text_input.
Proof. split; reflexivity. Qed.

(** ** The returned value *)

(** C3: if the render callback returns [undefined] the component returns
    [null], otherwise exactly what the callback produced; it never returns
    [undefined]. *)
Theorem undefined_becomes_null (props : Props) :
  result (FormDataConsumerView props) <> Normal VUndefined /\
  exists params,
    rendered (FormDataConsumerView props) = [params] /\
    result (FormDataConsumerView props) =
      match returned (children props params) with
      | Normal VUndefined => Normal VNull
      | produced => produced
      end.
Proof.
  split.
  - rewrite View_result. destruct (returned _) as [[]|]; simpl; congruence.
  - exists (params_of props). split; [apply View_rendered|].
    rewrite View_result. now destruct (returned _) as [[]|].
Qed.

(** ** The getSource closure *)

(** C5: for every string [relativePath], calling the [getSource] closure
    built in scoped mode returns [source ++ "." ++ relativePath] and records
    the call in [getSourceHasBeenCalled], also from within a run of the
    render callback; [getSource("role")] under [users.0] is [users.0.role]. *)
Theorem getSource_concatenates (source relativePath : string) (called : bool) :
  getSource source relativePath called =
    (true, VStr (source +:+ "." +:+ relativePath)) /\
  (forall k : value -> Render,
     run (Some source) (Call (VGetSource source) relativePath k) called =
     run (Some source) (k (VStr (source +:+ "." +:+ relativePath))) true) /\
  getSource "users.0" "role" false = (true, VStr "users.0.role") /\
  result (FormDataConsumerView users_0) = Normal (VStr "users.0.role") /\
  console (FormDataConsumerView users_0) = [].
Proof.
  split; [reflexivity|]. split; [|repeat split; reflexivity].
  intros k. simpl. now rewrite String.eqb_refl.
Qed.

(** ** The fallback to the default values *)

Lemma Object_keys_length (o : gmap string value) :
  length (Object_keys o) = size o.
Proof. unfold Object_keys. by rewrite length_fmap, length_map_to_list. Qed.

Lemma FormDataConsumer_formData (ctx : FormContext) (props : Props) :
  prop (own (FormDataConsumer ctx props)) "formData" =
  default (VObj (snapshot ctx)) (own props !! "formData").
Proof.
  unfold FormDataConsumer, snapshot, prop, spread. simpl.
  rewrite Object_keys_length.
  destruct (own props !! "formData") as [v|] eqn:E.
  - by rewrite (lookup_union_Some_l _ _ _ _ E).
  - rewrite lookup_union_r by done. rewrite lookup_singleton_eq. simpl.
    destruct (Nat.eqb_spec (size (useWatch ctx)) 0) as [H|H].
    + by rewrite bool_decide_eq_true_2.
    + by rewrite bool_decide_eq_false_2.
Qed.

(** C4, as stated, fails: [{...props}] is spread after [formData], so a
    [formData] property among the caller's own props is what the view
    receives, not the default values of the form. *)
Lemma fallback_overridden : ~ passes_snapshot first_render own_formData.
Proof.
  unfold passes_snapshot. rewrite FormDataConsumer_formData.
  vm_compute. congruence.
Qed.

(** C4 (amended): when the caller's own props carry no [formData], the
    [formData] passed down is the form's default values ([getValues()]) if
    the watched snapshot has zero keys, and the watched snapshot unchanged
    otherwise; that same value reaches the render callback. *)
Theorem fallback_to_default_values (ctx : FormContext) (props : Props) :
  own props !! "formData" = None ->
  passes_snapshot ctx props /\
  (useWatch ctx = ∅ ->
   prop (own (FormDataConsumer ctx props)) "formData" = VObj (getValues ctx)) /\
  (useWatch ctx <> ∅ ->
   prop (own (FormDataConsumer ctx props)) "formData" = VObj (useWatch ctx)) /\
  exists params,
    rendered (FormDataConsumerView (FormDataConsumer ctx props)) = [params] /\
    params !! "formData" = Some (VObj (snapshot ctx)).
Proof.
  intros Hfree.
  assert (Hp : passes_snapshot ctx props).
  { unfold passes_snapshot. by rewrite FormDataConsumer_formData, Hfree. }
  split; [exact Hp|]. unfold passes_snapshot in Hp.
  split; [|split].
  - intros He. rewrite Hp. unfold snapshot.
    rewrite bool_decide_eq_true_2; [done|]. by rewrite He.
  - intros Hne. rewrite Hp. unfold snapshot.
    rewrite bool_decide_eq_false_2; [done|].
    intros Hs. by apply map_size_empty_inv in Hs.
  - exists (params_of (FormDataConsumer ctx props)).
    split; [apply View_rendered|].
    by rewrite params_of_lookup_formData, Hp.
Qed.

Lemma fallback_to_default_values_witness :
  own plain !! "formData" = None /\
  prop (own (FormDataConsumer first_render plain)) "formData" =
    VObj {[ "title" := VStr "Hello" ]}.
Proof.
  assert (H : own plain !! "formData" = None) by reflexivity.
  split; [exact H|].
  destruct (fallback_to_default_values first_render plain H) as (_ & He & _).
  exact (He eq_refl).
Defined.

(** ** Outside scoped mode *)

Lemma helper_None (props : Props) :
  is_defined (prop (own props) "index") = false \/
  truthy (prop (own props) "source") = false ->
  helper props = None.
Proof.
  unfold helper. intros [-> | ->]; [reflexivity|].
  by rewrite andb_false_r.
Qed.

Lemma params_of_unscoped (props : Props) :
  helper props = None ->
  params_of props =
  <["formData" := prop (own props) "formData"]> (rest_of (own props)).
Proof.
  intros H. unfold params_of, literal_of, spread. rewrite H.
  symmetry. apply insert_union_singleton_r.
  by rewrite rest_of_lookup.
Qed.

Lemma unscoped_lookup (props : Props) (key : string) :
  helper props = None ->
  key ∉ ["children"; "form"; "formData"; "source"; "index"] ->
  params_of props !! key = own props !! key.
Proof.
  intros H Hk. rewrite (params_of_unscoped props H).
  rewrite lookup_insert_ne by (intros <-; apply Hk; named).
  rewrite rest_of_lookup. by rewrite bool_decide_eq_false_2.
Qed.

(** C6: when [index] is undefined or [source] is empty, the render callback
    receives exactly [formData] plus the pass-through properties, unmodified:
    the component adds no [scopedFormData] and no [getSource] of its own. *)
Theorem unscoped_params (props : Props) :
  is_defined (prop (own props) "index") = false \/
  truthy (prop (own props) "source") = false ->
  exists params,
    rendered (FormDataConsumerView props) = [params] /\
    params = <["formData" := prop (own props) "formData"]> (rest_of (own props)) /\
    params !! "scopedFormData" = own props !! "scopedFormData" /\
    params !! "getSource" = own props !! "getSource" /\
    forall key,
      key ∉ ["children"; "form"; "formData"; "source"; "index"] ->
      params !! key = own props !! key.
Proof.
  intros H. apply helper_None in H.
  exists (params_of props). split; [apply View_rendered|].
  split; [by apply params_of_unscoped|].
  split; [|split].
  - apply unscoped_lookup; [done | not_named].
  - apply unscoped_lookup; [done | not_named].
  - intros key. by apply unscoped_lookup.
Qed.

Lemma unscoped_params_witness :
  (is_defined (prop (own source_only) "index") = false \/
   truthy (prop (own source_only) "source") = false) /\
  exists params,
    rendered (FormDataConsumerView source_only) = [params] /\
    params = {[ "formData" := nested_abc; "resource" := VStr "posts" ]}.
Proof.
  assert (H : is_defined (prop (own source_only) "index") = false \/
              truthy (prop (own source_only) "source") = false)
    by (left; reflexivity).
  split; [exact H|].
  destruct (unscoped_params source_only H) as (params & Hr & Hp & _).
  exists params. split; [exact Hr|].
  rewrite Hp. vm_compute. reflexivity.
Defined.

(** C10: when [index] is defined but [source] is empty or undefined, the
    non-scoped branch runs (the callback is handed no [getSource] by the
    component), and the warning still fires whenever the callback returns a
    non-empty (truthy) result. *)
Theorem index_without_source_warns (props : Props) :
  is_defined (prop (own props) "index") = true ->
  truthy (prop (own props) "source") = false ->
  exists params,
    rendered (FormDataConsumerView props) = [params] /\
    params = <["formData" := prop (own props) "formData"]> (rest_of (own props)) /\
    params !! "getSource" = own props !! "getSource" /\
    forall ret,
      returned (children props params) = Normal ret ->
      truthy ret = true ->
      console (FormDataConsumerView props) = [getSource_message].
Proof.
  intros Hi Hs.
  assert (H : helper props = None) by (apply helper_None; by right).
  exists (params_of props). split; [apply View_rendered|].
  split; [by apply params_of_unscoped|].
  split; [apply unscoped_lookup; [done | not_named]|].
  intros ret Hret Ht.
  rewrite View_console, Hret, Hi, Ht, H, invoked_None. reflexivity.
Qed.

Lemma index_without_source_warns_witness :
  (is_defined (prop (own index_only) "index") = true /\
   truthy (prop (own index_only) "source") = false) /\
  console (FormDataConsumerView index_only) = [getSource_message].
Proof.
  assert (Hi : is_defined (prop (own index_only) "index") = true) by reflexivity.
  assert (Hs : truthy (prop (own index_only) "source") = false) by reflexivity.
  split; [tauto|].
  destruct (index_without_source_warns index_only Hi Hs) as (params & _ & _ & _ & Hw).
  apply (Hw text_input); reflexivity.
Defined.

(** ** The properties removed from the pass-through *)

Lemma literal_of_lookup_other (props : Props) (key : string) :
  key ∉ ["formData"; "scopedFormData"; "getSource"] ->
  literal_of props !! key = None.
Proof.
  intros Hk. unfold literal_of.
  assert (key <> "formData") by (intros ->; apply Hk; named).
  assert (key <> "scopedFormData") by (intros ->; apply Hk; named).
  assert (key <> "getSource") by (intros ->; apply Hk; named).
  destruct (helper props); by simplify_map_eq.
Qed.

Lemma params_of_lookup_removed (props : Props) (key : string) :
  key ∈ ["children"; "form"; "source"; "index"] ->
  params_of props !! key = None.
Proof.
  intros Hk. unfold params_of, spread. apply lookup_union_None. split.
  - rewrite rest_of_lookup. rewrite bool_decide_eq_true_2; [done|].
    repeat (apply elem_of_cons in Hk as [->|Hk]; [named|]).
    by apply elem_of_nil in Hk.
  - apply literal_of_lookup_other.
    repeat (apply elem_of_cons in Hk as [->|Hk]; [not_named|]).
    by apply elem_of_nil in Hk.
Qed.

(** C9: [form], [formData], [source] and [index] are removed from the
    pass-through properties in every call, scoped or not: the rest that is
    spread holds none of them, so the callback never receives [form],
    [source] or [index], and receives [formData] only as the explicit
    entry; every other property is passed through as supplied. *)
Theorem named_props_removed (props : Props) :
  rest_of (own props) !! "form" = None /\
  rest_of (own props) !! "formData" = None /\
  rest_of (own props) !! "source" = None /\
  rest_of (own props) !! "index" = None /\
  (forall key,
     key ∉ ["children"; "form"; "formData"; "source"; "index"] ->
     rest_of (own props) !! key = own props !! key) /\
  exists params,
    rendered (FormDataConsumerView props) = [params] /\
    params !! "form" = None /\
    params !! "source" = None /\
    params !! "index" = None /\
    params !! "formData" = Some (prop (own props) "formData").
Proof.
  repeat (split; [by rewrite rest_of_lookup|]).
  split.
  - intros key Hk. rewrite rest_of_lookup. by rewrite bool_decide_eq_false_2.
  - exists (params_of props). split; [apply View_rendered|].
    repeat (split; [apply params_of_lookup_removed; named|]).
    apply params_of_lookup_formData.
Qed.

Example source_only_drops_names :
  rendered (FormDataConsumerView source_only) =
    [{[ "formData" := nested_abc; "resource" := VStr "posts" ]}].
Proof. vm_compute. reflexivity. Qed.

(** ** The lookup never fails *)

Example chain_throws :
  chain nested_abc ["a"; "x"; "y"] = Thrown TypeError /\
  get nested_abc "a.x.y" = Normal VUndefined.
Proof. split; reflexivity. Qed.

(** C7: for every form snapshot and every [source] path the scoped lookup
    yields a value and never throws; where the path is missing from the
    snapshot the value is [undefined]; and the lookup never keeps the view
    from invoking the render callback. *)
Theorem lookup_never_fails (formData : value) (source : string) :
  (exists scoped, get formData source = Normal scoped) /\
  (has_path formData (castPath source formData) = false ->
   get formData source = Normal VUndefined) /\
  (forall props, exists params,
     rendered (FormDataConsumerView props) = [params]).
Proof.
  split; [apply get_total|]. split.
  - intros Hp. unfold get, baseGet.
    destruct (is_nullish formData); [reflexivity|].
    destruct (castPath source formData) as [|key keys] eqn:E; [reflexivity|].
    now apply baseGet_loop_missing.
  - intros props. exists (params_of props). apply View_rendered.
Qed.

Lemma lookup_never_fails_witness :
  has_path nested_abc (castPath "a.x.y" nested_abc) = false /\
  get nested_abc "a.x.y" = Normal VUndefined.
Proof.
  assert (H : has_path nested_abc (castPath "a.x.y" nested_abc) = false)
    by reflexivity.
  split; [exact H|].
  exact (proj1 (proj2 (lookup_never_fails nested_abc "a.x.y")) H).
Defined.

(** ** The snapshot is not written to *)

Module StoreFacts.

Import Store.

Lemma store_member_defined (h : gmap loc (gmap string val)) (o : val)
    (key : string) :
  is_nullish o = false -> exists v, member h o key = Some v.
Proof. destruct o; simpl; intros H; try discriminate; eauto. Qed.

Lemma store_baseGet_loop_total (h : gmap loc (gmap string val))
    (keys : list string) :
  forall o, exists v, baseGet_loop h o keys = Normal v.
Proof.
  induction keys as [|key keys IH]; intros o; simpl; [eauto|].
  destruct (is_nullish o) eqn:Hn; [eauto|].
  destruct (store_member_defined h o key Hn) as [v ->]. apply IH.
Qed.

Lemma store_get_total (h : gmap loc (gmap string val)) (o : val)
    (path : string) :
  get h o path = Normal (scopedFormData_of h o path).
Proof.
  unfold scopedFormData_of.
  assert (exists v, get h o path = Normal v) as [v ->]; [|reflexivity].
  unfold get, baseGet. destruct (is_nullish o); [eauto|].
  destruct (castPath h path o) as [|key keys]; [eauto|].
  apply store_baseGet_loop_total.
Qed.

Lemma store_run_left (mine : option string) (t : Render) :
  forall called, (run mine t called).1.2 = left_by t.
Proof.
  induction t as [h ret|h e|h f arg k IH]; intros called; simpl;
    try reflexivity.
  destruct f; try reflexivity; [|apply IH].
  destruct (owns mine source); simpl; apply IH.
Qed.

Lemma store_View_unfold (h : gmap loc (gmap string val)) (props : Props) :
  FormDataConsumerView h props =
  let params := fresh (dom h) in
  let h' := <[params := params_of h props]> h in
  finish (prop (own props) "index") h' (Ref params)
    (run (helper props) (children props h' (Ref params)) false).
Proof.
  unfold FormDataConsumerView, params_of, helper, alloc.
  destruct (is_defined _ && truthy _); [|reflexivity].
  rewrite store_get_total. reflexivity.
Qed.

Lemma store_View_at_call (h : gmap loc (gmap string val)) (props : Props) :
  at_call (FormDataConsumerView h props) =
  <[fresh (dom h) := params_of h props]> h.
Proof.
  rewrite store_View_unfold. simpl.
  destruct (run _ _ _) as [[called h'] [ret|e]]; reflexivity.
Qed.

Lemma store_View_argument (h : gmap loc (gmap string val)) (props : Props) :
  argument (FormDataConsumerView h props) = Ref (fresh (dom h)).
Proof.
  rewrite store_View_unfold. simpl.
  destruct (run _ _ _) as [[called h'] [ret|e]]; reflexivity.
Qed.

Lemma store_View_after (h : gmap loc (gmap string val)) (props : Props) :
  after (FormDataConsumerView h props) =
  left_by (children props (at_call (FormDataConsumerView h props))
             (argument (FormDataConsumerView h props))).
Proof.
  rewrite store_View_at_call, store_View_argument, store_View_unfold. simpl.
  rewrite <- (store_run_left (helper props) _ false).
  destruct (run _ _ _) as [[called h'] [ret|e]]; reflexivity.
Qed.

Lemma store_rest_of_lookup (o : gmap string val) (key : string) :
  rest_of o !! key =
  if bool_decide (key ∈ ["children"; "form"; "formData"; "source"; "index"])
  then None else o !! key.
Proof.
  unfold rest_of. case_bool_decide as H.
  - repeat (apply elem_of_cons in H as [->|H];
            [by repeat (rewrite lookup_delete_eq || rewrite lookup_delete_ne by done)|]).
    by apply elem_of_nil in H.
  - repeat (rewrite lookup_delete_ne; [|intros <-; apply H; named]).
    reflexivity.
Qed.

Lemma store_params_formData (h : gmap loc (gmap string val)) (props : Props) :
  prop (params_of h props) "formData" = prop (own props) "formData".
Proof.
  unfold prop at 1. unfold params_of, spread. destruct (helper props);
    rewrite lookup_union_r by (by rewrite store_rest_of_lookup);
    by simplify_map_eq.
Qed.

Lemma store_params_scoped (h : gmap loc (gmap string val)) (props : Props)
    (source : string) :
  helper props = Some source ->
  prop (params_of h props) "scopedFormData" =
  default (scopedFormData_of h (prop (own props) "formData") source)
    (own props !! "scopedFormData").
Proof.
  intros Hh.
  assert (Hs : source = as_string (prop (own props) "source")).
  { unfold helper in Hh. destruct (_ && _); congruence. }
  unfold prop at 1. unfold params_of, spread. rewrite Hh, <- Hs.
  rewrite lookup_union, store_rest_of_lookup.
  rewrite bool_decide_eq_false_2 by not_named.
  destruct (own props !! "scopedFormData"); by simplify_map_eq.
Qed.

Lemma store_FormDataConsumer_formData (h : gmap loc (gmap string val))
    (ctx : FormContext) (props : Props) :
  prop (own (FormDataConsumer h ctx props)) "formData" =
  default (Ref (snapshot h ctx)) (own props !! "formData").
Proof.
  unfold FormDataConsumer, snapshot, prop, spread, Object_keys. simpl.
  rewrite length_fmap, length_map_to_list.
  destruct (own props !! "formData") as [v|] eqn:E.
  - by rewrite (lookup_union_Some_l _ _ _ _ E).
  - rewrite lookup_union_r by done. rewrite lookup_singleton_eq. simpl.
    destruct (Nat.eqb_spec (size (deref h (useWatch ctx))) 0) as [H|H].
    + rewrite bool_decide_eq_true_2; [done|]. by apply map_size_empty_inv.
    + rewrite bool_decide_eq_false_2; [done|]. intros He. apply H.
      by rewrite He.
Qed.

Lemma store_deref_at_call (h : gmap loc (gmap string val)) (props : Props) :
  deref (at_call (FormDataConsumerView h props)) (fresh (dom h)) =
  params_of h props.
Proof.
  rewrite store_View_at_call. unfold deref. by rewrite lookup_insert_eq.
Qed.

(** C8, as stated, fails for [FormDataConsumer]: a [formData] property among
    the caller's own props is spread after the snapshot of the form context
    and replaces it, so the callback receives the caller's object, which is
    neither the watched values nor the defaults. *)
Lemma host_snapshot_replaced :
  ~ receives_host_snapshot form_store edited own_formData.
Proof.
  unfold receives_host_snapshot. intros (params & Ha & Hd).
  rewrite store_View_argument in Ha. injection Ha as <-.
  rewrite store_deref_at_call, store_params_formData,
    store_FormDataConsumer_formData in Hd.
  simpl in Hd. destruct Hd; discriminate.
Qed.

(** C8 (amended): the form snapshot is never mutated by the component.
    When the callback is invoked, every object that was in the store is as
    it was (the component has only created the argument object), and when
    the component returns the store is as the callback left it.  The object
    passed to the render callback under [formData] is the very one the view
    was given, and the scoped sub-object is the one found by the lookup in
    the untouched store (a pass-through [scopedFormData] takes its place
    when supplied).  For [FormDataConsumer] the object given to the view is
    the snapshot of the form context (the default values when the watched
    object has no keys), except that a [formData] entry among the caller's
    own props is passed in its place. *)
Theorem snapshot_never_mutated (h : gmap loc (gmap string val))
    (ctx : FormContext) (props : Props) :
  (forall l, l ∈ dom h ->
     at_call (FormDataConsumerView h props) !! l = h !! l) /\
  (exists params,
     argument (FormDataConsumerView h props) = Ref params /\
     (params ∉ dom h) /\
     prop (deref (at_call (FormDataConsumerView h props)) params) "formData" =
       prop (own props) "formData" /\
     match helper props with
     | Some source =>
         exists scoped,
           get h (prop (own props) "formData") source = Normal scoped /\
           prop (deref (at_call (FormDataConsumerView h props)) params)
             "scopedFormData" =
           default scoped (own props !! "scopedFormData")
     | None => True
     end) /\
  after (FormDataConsumerView h props) =
    left_by (children props (at_call (FormDataConsumerView h props))
               (argument (FormDataConsumerView h props))) /\
  prop (own (FormDataConsumer h ctx props)) "formData" =
    default (Ref (snapshot h ctx)) (own props !! "formData") /\
  children (FormDataConsumer h ctx props) = children props.
Proof.
  split; [|split; [|split; [|split]]].
  - intros l Hl. rewrite store_View_at_call.
    apply lookup_insert_ne. intros <-. by apply (is_fresh (dom h)).
  - exists (fresh (dom h)).
    split; [apply store_View_argument|].
    split; [apply is_fresh|].
    rewrite store_deref_at_call.
    split; [apply store_params_formData|].
    destruct (helper props) as [source|] eqn:Hh; [|exact I].
    exists (scopedFormData_of h (prop (own props) "formData") source).
    split; [apply store_get_total | by apply store_params_scoped].
  - apply store_View_after.
  - apply store_FormDataConsumer_formData.
  - reflexivity.
Qed.

Lemma snapshot_never_mutated_witness :
  (1%positive ∈ dom form_store) /\
  at_call (FormDataConsumerView form_store scribbler) !! 1%positive =
    Some {[ "title" := Str "Draft" ]}.
Proof.
  assert (H : 1%positive ∈ dom form_store)
    by (apply elem_of_dom; eexists; reflexivity).
  split; [exact H|].
  exact (proj1 (snapshot_never_mutated form_store edited scribbler) _ H).
Defined.

(** What the callback writes is there when the component returns. *)
Example callback_write_is_kept :
  after (FormDataConsumerView form_store scribbler) !! 1%positive =
    Some {[ "title" := Str "Scribbled" ]}.
Proof. vm_compute. reflexivity. Qed.

End StoreFacts.

(** * Further properties of the components *)

(** ** What the view depends on *)

Lemma finish_defined (v w : value) (args : list (gmap string value))
    (r : bool * completion) :
  is_defined v = is_defined w -> finish v args r = finish w args r.
Proof.
  intros H. destruct r as [called [ret|e]]; simpl; [|reflexivity].
  by rewrite H.
Qed.

Lemma rest_of_insert_named (o : gmap string value) (key : string) (v : value) :
  key ∈ ["children"; "form"; "formData"; "source"; "index"] ->
  rest_of (<[key := v]> o) = rest_of o.
Proof.
  intros Hk. apply map_eq. intros k. rewrite !rest_of_lookup.
  case_bool_decide as Hin; [reflexivity|].
  apply lookup_insert_ne. by intros <-.
Qed.

Lemma prop_insert_ne (o : gmap string value) (key key' : string) (v : value) :
  key <> key' -> prop (<[key := v]> o) key' = prop o key'.
Proof. intros H. unfold prop. by rewrite lookup_insert_ne. Qed.

Lemma prop_insert_eq (o : gmap string value) (key : string) (v : value) :
  prop (<[key := v]> o) key = v.
Proof. unfold prop. by rewrite lookup_insert_eq. Qed.

(** The view reads its props through [formData], [source], whether [index]
    is defined, and the rest. *)
Lemma View_congr (p q : Props) :
  children p = children q ->
  prop (own p) "formData" = prop (own q) "formData" ->
  prop (own p) "source" = prop (own q) "source" ->
  is_defined (prop (own p) "index") = is_defined (prop (own q) "index") ->
  rest_of (own p) = rest_of (own q) ->
  FormDataConsumerView p = FormDataConsumerView q.
Proof.
  intros Hc Hf Hs Hi Hr. unfold FormDataConsumerView.
  rewrite Hc, Hf, Hs, Hi, Hr.
  destruct (is_defined _ && truthy _).
  - destruct (get _ _); [|reflexivity]. by apply finish_defined.
  - by apply finish_defined.
Qed.

(** X1: when the render callback throws, the view throws the same value:
    the exception is not caught, no warning is emitted and nothing is
    returned, whatever [index] and [source] are. *)
Theorem callback_throw_propagates (props : Props) (e : value)
    (params : gmap string value) :
  rendered (FormDataConsumerView props) = [params] ->
  returned (children props params) = Thrown e ->
  result (FormDataConsumerView props) = Thrown e /\
  console (FormDataConsumerView props) = [].
Proof.
  intros Hr He. rewrite View_rendered in Hr. injection Hr as <-.
  rewrite View_result, View_console, He. split; reflexivity.
Qed.

Lemma callback_throw_propagates_witness :
  (rendered (FormDataConsumerView throwing) =
     [{[ "formData" := nested_abc ]}] /\
   returned (children throwing {[ "formData" := nested_abc ]}) =
     Thrown (VStr "boom")) /\
  result (FormDataConsumerView throwing) = Thrown (VStr "boom") /\
  console (FormDataConsumerView throwing) = [].
Proof.
  assert (H1 : rendered (FormDataConsumerView throwing) =
               [{[ "formData" := nested_abc ]}]) by (vm_compute; reflexivity).
  assert (H2 : returned (children throwing {[ "formData" := nested_abc ]}) =
               Thrown (VStr "boom")) by reflexivity.
  split; [tauto|].
  exact (callback_throw_propagates throwing (VStr "boom") _ H1 H2).
Defined.

(** X2: only whether [index] is defined matters, not its value: two calls
    that differ in nothing but the (defined) value of [index] invoke the
    callback with the same argument, warn alike and return the same. *)
Theorem index_value_unused (render : FormDataConsumerRender)
    (o : gmap string value) (v w : value) :
  is_defined v = true -> is_defined w = true ->
  FormDataConsumerView {| children := render; own := <["index" := v]> o |} =
  FormDataConsumerView {| children := render; own := <["index" := w]> o |}.
Proof.
  intros Hv Hw. apply View_congr; simpl.
  - reflexivity.
  - by rewrite !prop_insert_ne.
  - by rewrite !prop_insert_ne.
  - by rewrite !prop_insert_eq, Hv, Hw.
  - rewrite !rest_of_insert_named by named. reflexivity.
Qed.

Lemma index_value_unused_witness :
  (is_defined (VNum 0) = true /\ is_defined (VNum 7) = true) /\
  FormDataConsumerView
    {| children := show_scoped; own := <["index" := VNum 0]> (own scoped_ab) |} =
  FormDataConsumerView
    {| children := show_scoped; own := <["index" := VNum 7]> (own scoped_ab) |}.
Proof.
  assert (H1 : is_defined (VNum 0) = true) by reflexivity.
  assert (H2 : is_defined (VNum 7) = true) by reflexivity.
  split; [tauto|].
  exact (index_value_unused show_scoped (own scoped_ab) (VNum 0) (VNum 7) H1 H2).
Defined.

(** X3: the [form] prop is accepted and ignored: it is destructured away
    and never read, so a call with a [form] prop behaves exactly like the
    same call without it. *)
Theorem form_prop_ignored (render : FormDataConsumerRender)
    (o : gmap string value) (v : value) :
  FormDataConsumerView {| children := render; own := <["form" := v]> o |} =
  FormDataConsumerView {| children := render; own := delete "form" o |}.
Proof.
  apply View_congr; simpl.
  - reflexivity.
  - unfold prop. by rewrite lookup_insert_ne, lookup_delete_ne.
  - unfold prop. by rewrite lookup_insert_ne, lookup_delete_ne.
  - unfold prop. by rewrite lookup_insert_ne, lookup_delete_ne.
  - apply map_eq. intros k. rewrite !rest_of_lookup.
    case_bool_decide as Hin; [reflexivity|].
    assert ("form" <> k) by (intros <-; apply Hin; named).
    by rewrite lookup_insert_ne, lookup_delete_ne.
Qed.

(** X4: outside an iterator ([index] undefined) the view never warns,
    whatever the callback returns and whatever [source] is. *)
Theorem no_warning_without_index (props : Props) :
  is_defined (prop (own props) "index") = false ->
  console (FormDataConsumerView props) = [].
Proof.
  intros Hi. rewrite View_console, Hi.
  by destruct (returned _).
Qed.

Lemma no_warning_without_index_witness :
  is_defined (prop (own source_only) "index") = false /\
  console (FormDataConsumerView source_only) = [].
Proof.
  assert (H : is_defined (prop (own source_only) "index") = false)
    by reflexivity.
  split; [exact H|].
  exact (no_warning_without_index source_only H).
Defined.

(** X5: without an [index], [source] has no effect: it is removed from the
    pass-through properties and not used for a lookup, so two calls that
    differ only in [source] behave alike. *)
Theorem source_unused_without_index (render : FormDataConsumerRender)
    (o : gmap string value) (v w : value) :
  is_defined (prop o "index") = false ->
  FormDataConsumerView {| children := render; own := <["source" := v]> o |} =
  FormDataConsumerView {| children := render; own := <["source" := w]> o |}.
Proof.
  intros Hi. unfold FormDataConsumerView. simpl.
  rewrite !(prop_insert_ne _ "source" "index") by done.
  rewrite !(prop_insert_ne _ "source" "formData") by done.
  rewrite Hi. simpl.
  rewrite !rest_of_insert_named by named. reflexivity.
Qed.

Lemma source_unused_without_index_witness :
  is_defined (prop (own plain) "index") = false /\
  FormDataConsumerView
    {| children := show_formData; own := <["source" := VStr "a.b"]> (own plain) |} =
  FormDataConsumerView
    {| children := show_formData; own := <["source" := VStr "users.0"]> (own plain) |}.
Proof.
  assert (H : is_defined (prop (own plain) "index") = false) by reflexivity.
  split; [exact H|].
  exact (source_unused_without_index show_formData (own plain)
           (VStr "a.b") (VStr "users.0") H).
Defined.

(** ** What reaches the callback *)

Lemma params_of_pass_through (props : Props) (key : string) (v : value) :
  key ∉ ["children"; "form"; "formData"; "source"; "index"] ->
  own props !! key = Some v ->
  params_of props !! key = Some v.
Proof.
  intros Hk Hv. unfold params_of, spread.
  apply lookup_union_Some_l. rewrite rest_of_lookup.
  by rewrite bool_decide_eq_false_2.
Qed.

Lemma params_of_unshadowed (props : Props) (key : string) :
  key ∉ ["children"; "form"; "formData"; "source"; "index"] ->
  own props !! key = None ->
  params_of props !! key = literal_of props !! key.
Proof.
  intros Hk Hv. unfold params_of, spread.
  apply lookup_union_r. rewrite rest_of_lookup.
  by rewrite bool_decide_eq_false_2.
Qed.

Lemma helper_scoped (props : Props) (source : string) :
  is_defined (prop (own props) "index") = true ->
  prop (own props) "source" = VStr source ->
  source <> EmptyString ->
  helper props = Some source.
Proof.
  intros Hi Hs Hne. unfold helper. rewrite Hi, Hs. simpl.
  by destruct (String.eqb_spec source "").
Qed.

Lemma literal_of_scoped (props : Props) (source : string) :
  is_defined (prop (own props) "index") = true ->
  prop (own props) "source" = VStr source ->
  source <> EmptyString ->
  literal_of props =
  {[ "formData" := prop (own props) "formData";
     "scopedFormData" := scopedFormData_of (prop (own props) "formData") source;
     "getSource" := VGetSource source ]}.
Proof.
  intros Hi Hs Hne. unfold literal_of.
  rewrite (helper_scoped props source Hi Hs Hne). by rewrite Hs.
Qed.

(** X6: a pass-through property always reaches the callback with the value
    the caller gave it, in scoped mode as well: any own property other than
    [children], [form], [formData], [source] and [index] is spread last and
    so also replaces a [scopedFormData] or [getSource] built by the view. *)
Theorem pass_through_wins (props : Props) (key : string) (v : value) :
  key ∉ ["children"; "form"; "formData"; "source"; "index"] ->
  own props !! key = Some v ->
  exists params,
    rendered (FormDataConsumerView props) = [params] /\
    params !! key = Some v.
Proof.
  intros Hk Hv. exists (params_of props).
  split; [apply View_rendered | by apply params_of_pass_through].
Qed.

Lemma pass_through_wins_witness :
  (("resource" ∉ ["children"; "form"; "formData"; "source"; "index"]) /\
   own scoped_ab !! "resource" = Some (VStr "posts")) /\
  exists params,
    rendered (FormDataConsumerView scoped_ab) = [params] /\
    params !! "resource" = Some (VStr "posts").
Proof.
  assert (H1 : "resource" ∉ ["children"; "form"; "formData"; "source"; "index"])
    by (apply (proj1 (bool_decide_eq_false _)); reflexivity).
  assert (H2 : own scoped_ab !! "resource" = Some (VStr "posts")) by reflexivity.
  split; [tauto|].
  exact (pass_through_wins scoped_ab "resource" (VStr "posts") H1 H2).
Defined.

(** X7: in scoped mode, a callback that calls the [getSource] it was handed
    gets [source.relativePath] back and is not warned about, whatever it
    returns afterwards (provided the caller passed no [getSource] of its
    own through the props). *)
Theorem calling_getSource_silences (props : Props) (source rel : string)
    (k : gmap string value -> value -> Render) :
  is_defined (prop (own props) "index") = true ->
  prop (own props) "source" = VStr source ->
  source <> EmptyString ->
  own props !! "getSource" = None ->
  (forall params,
     children props params = Call (prop params "getSource") rel (k params)) ->
  console (FormDataConsumerView props) = [] /\
  exists params,
    rendered (FormDataConsumerView props) = [params] /\
    result (FormDataConsumerView props) =
      or_null (returned (k params (VStr (source +:+ "." +:+ rel)))).
Proof.
  intros Hi Hs Hne Hfree Hc.
  assert (Hg : prop (params_of props) "getSource" = VGetSource source).
  { unfold prop. rewrite params_of_unshadowed by (done || not_named).
    rewrite (literal_of_scoped props source Hi Hs Hne). by simplify_map_eq. }
  assert (Hinv : forall K, invoked (Some source)
                               (Call (VGetSource source) rel K) = true).
  { intros K. unfold invoked. simpl. by rewrite String.eqb_refl. }
  split.
  - rewrite View_console, Hc, Hg, (helper_scoped props source Hi Hs Hne), Hinv.
    destruct (returned _); [|reflexivity]. by rewrite andb_false_r.
  - exists (params_of props). split; [apply View_rendered|].
    by rewrite View_result, Hc, Hg.
Qed.

Lemma calling_getSource_silences_witness :
  (is_defined (prop (own users_0) "index") = true /\
   prop (own users_0) "source" = VStr "users.0" /\
   "users.0" <> EmptyString /\
   own users_0 !! "getSource" = None /\
   forall params,
     children users_0 params =
     Call (prop params "getSource") "role" ((fun _ => Return) params)) /\
  console (FormDataConsumerView users_0) = [].
Proof.
  assert (H1 : is_defined (prop (own users_0) "index") = true) by reflexivity.
  assert (H2 : prop (own users_0) "source" = VStr "users.0") by reflexivity.
  assert (H3 : "users.0" <> EmptyString) by discriminate.
  assert (H4 : own users_0 !! "getSource" = None) by reflexivity.
  assert (H5 : forall params,
             children users_0 params =
             Call (prop params "getSource") "role" ((fun _ => Return) params))
    by reflexivity.
  split; [tauto|].
  exact (proj1 (calling_getSource_silences users_0 "users.0" "role"
                  (fun _ => Return) H1 H2 H3 H4 H5)).
Defined.

(** X8: in scoped mode with no [formData] prop at all, the lookup does not
    throw: the callback is still invoked, with [formData] and
    [scopedFormData] both [undefined]. *)
Theorem scoped_without_formData (props : Props) (source : string) :
  is_defined (prop (own props) "index") = true ->
  prop (own props) "source" = VStr source ->
  source <> EmptyString ->
  own props !! "formData" = None ->
  own props !! "scopedFormData" = None ->
  exists params,
    rendered (FormDataConsumerView props) = [params] /\
    params !! "formData" = Some VUndefined /\
    params !! "scopedFormData" = Some VUndefined.
Proof.
  intros Hi Hs Hne Hf Hsc. exists (params_of props).
  split; [apply View_rendered|]. split.
  - rewrite params_of_lookup_formData. unfold prop. by rewrite Hf.
  - rewrite params_of_unshadowed by (done || not_named).
    rewrite (literal_of_scoped props source Hi Hs Hne).
    unfold prop. rewrite Hf. by simplify_map_eq.
Qed.

Lemma scoped_without_formData_witness :
  (is_defined (prop (own in_iterator) "index") = true /\
   prop (own in_iterator) "source" = VStr "title" /\
   "title" <> EmptyString /\
   own in_iterator !! "formData" = None /\
   own in_iterator !! "scopedFormData" = None) /\
  exists params,
    rendered (FormDataConsumerView in_iterator) = [params] /\
    params !! "formData" = Some VUndefined /\
    params !! "scopedFormData" = Some VUndefined.
Proof.
  assert (H1 : is_defined (prop (own in_iterator) "index") = true) by reflexivity.
  assert (H2 : prop (own in_iterator) "source" = VStr "title") by reflexivity.
  assert (H3 : "title" <> EmptyString) by discriminate.
  assert (H4 : own in_iterator !! "formData" = None) by reflexivity.
  assert (H5 : own in_iterator !! "scopedFormData" = None) by reflexivity.
  split; [tauto|].
  exact (scoped_without_formData in_iterator "title" H1 H2 H3 H4 H5).
Defined.

(** ** The path built by getSource *)

Lemma append_cons (c : ascii) (s t : string) :
  String c s +:+ t = String c (s +:+ t).
Proof. reflexivity. Qed.

Lemma append_assoc (s1 s2 s3 : string) :
  (s1 +:+ s2) +:+ s3 = s1 +:+ (s2 +:+ s3).
Proof.
  induction s1 as [|c s1 IH]; [reflexivity|].
  rewrite !append_cons. by f_equal.
Qed.

(** X9: [getSource] composes across nested iterators: the helper of an
    inner scope, whose [source] is what the outer helper returned for [a],
    gives for [b] the string the outer helper gives for [a.b]. *)
Theorem getSource_nested (source a b : string) (called called' : bool) :
  exists inner,
    (getSource source a called).2 = VStr inner /\
    (getSource inner b called').2 =
      (getSource source (a +:+ "." +:+ b) called').2.
Proof.
  exists (source +:+ "." +:+ a). split; [reflexivity|].
  unfold getSource. simpl. f_equal.
  rewrite append_assoc. reflexivity.
Qed.

Lemma segments_separator (s1 s2 : string) (c : ascii) :
  is_separator c = true ->
  forall cur,
    segments (s1 +:+ String c s2) cur = segments s1 cur ++ segments s2 None.
Proof.
  intros Hc. induction s1 as [|c1 s1 IH]; intros cur.
  - change (EmptyString +:+ String c s2) with (String c s2). simpl.
    by rewrite Hc.
  - rewrite append_cons. simpl.
    destruct (is_separator c1); [|apply IH].
    rewrite IH. by rewrite app_assoc.
Qed.

Lemma has_dot_joined (s1 s2 : string) :
  has_dot (s1 +:+ "." +:+ s2) = true.
Proof.
  induction s1 as [|c s1 IH]; [reflexivity|].
  rewrite append_cons. simpl. rewrite IH. apply orb_true_r.
Qed.

Lemma baseGet_loop_nullish (o : value) (keys : list string) :
  is_nullish o = true -> keys <> [] ->
  baseGet_loop o keys = Normal VUndefined.
Proof. intros Ho Hk. destruct keys; [done|]. simpl. by rewrite Ho. Qed.

Lemma baseGet_loop_app (keys1 keys2 : list string) :
  keys2 <> [] ->
  forall o v,
    baseGet_loop o keys1 = Normal v ->
    baseGet_loop o (keys1 ++ keys2) = baseGet_loop v keys2.
Proof.
  intros Hk. induction keys1 as [|key keys1 IH]; intros o v; simpl.
  - by intros [= ->].
  - destruct (is_nullish o) eqn:Hn.
    + intros [= <-]. symmetry. by apply baseGet_loop_nullish.
    + destruct (member o key) as [w|]; [apply IH | discriminate].
Qed.

Lemma baseGet_keys (o : value) (path : string) :
  castPath path o <> [] -> baseGet o path = baseGet_loop o (castPath path o).
Proof. unfold baseGet. by destruct (castPath path o). Qed.

(** X10: the path returned by [getSource] addresses, in the whole
    [formData], the value that the relative name addresses in
    [scopedFormData]: looking up [getSource(rel)] in [formData] gives what
    looking up [rel] in the scoped data gives.  The paths are read as paths
    (neither is taken as one literal key of the object it is looked up in)
    and have at least one segment. *)
Theorem getSource_addresses_scoped (formData scoped : value)
    (source rel : string) (called : bool) :
  get formData source = Normal scoped ->
  castPath source formData = stringToPath source ->
  stringToPath source <> [] ->
  castPath rel scoped = stringToPath rel ->
  stringToPath rel <> [] ->
  has_own formData (source +:+ "." +:+ rel) = false ->
  exists path,
    (getSource source rel called).2 = VStr path /\
    get formData path = get scoped rel.
Proof.
  intros Hg Hs Hs' Hr Hr' Hown.
  exists (source +:+ "." +:+ rel). split; [reflexivity|].
  unfold get in *. destruct (is_nullish formData) eqn:Hn.
  - injection Hg as <-. reflexivity.
  - assert (Hp : castPath (source +:+ "." +:+ rel) formData =
                 stringToPath source ++ stringToPath rel).
    { unfold castPath, isKey, isDeepProp.
      rewrite has_dot_joined, Hown. simpl.
      unfold stringToPath. by apply segments_separator. }
    rewrite baseGet_keys in Hg by (by rewrite Hs).
    rewrite baseGet_keys by (rewrite Hp; by destruct (stringToPath source)).
    rewrite Hp, (baseGet_loop_app _ _ Hr' formData scoped) by (by rewrite <- Hs).
    destruct (is_nullish scoped) eqn:Hn'.
    + by apply baseGet_loop_nullish.
    + rewrite baseGet_keys by (by rewrite Hr). by rewrite Hr.
Qed.

Lemma getSource_addresses_scoped_witness :
  (get team "users.0" =
     Normal (VObj {[ "name" := VStr "Ann"; "role" := VStr "admin" ]}) /\
   castPath "users.0" team = stringToPath "users.0" /\
   stringToPath "users.0" <> [] /\
   castPath "role" (VObj {[ "name" := VStr "Ann"; "role" := VStr "admin" ]}) =
     stringToPath "role" /\
   stringToPath "role" <> [] /\
   has_own team ("users.0" +:+ "." +:+ "role") = false) /\
  get team "users.0.role" = Normal (VStr "admin").
Proof.
  assert (H1 : get team "users.0" =
               Normal (VObj {[ "name" := VStr "Ann"; "role" := VStr "admin" ]}))
    by (vm_compute; reflexivity).
  assert (H2 : castPath "users.0" team = stringToPath "users.0") by reflexivity.
  assert (H3 : stringToPath "users.0" <> []) by discriminate.
  assert (H4 : castPath "role"
                 (VObj {[ "name" := VStr "Ann"; "role" := VStr "admin" ]}) =
               stringToPath "role") by reflexivity.
  assert (H5 : stringToPath "role" <> []) by discriminate.
  assert (H6 : has_own team ("users.0" +:+ "." +:+ "role") = false)
    by reflexivity.
  split; [tauto|].
  destruct (getSource_addresses_scoped team _ "users.0" "role" false
              H1 H2 H3 H4 H5 H6) as (path & Hp & Hl).
  injection Hp as <-. exact Hl.
Defined.

(** ** The two components together *)

Lemma FormDataConsumer_lookup_other (ctx : FormContext) (props : Props)
    (key : string) :
  key <> "formData" ->
  own (FormDataConsumer ctx props) !! key = own props !! key.
Proof.
  intros Hk. unfold FormDataConsumer, spread. simpl.
  rewrite lookup_union, lookup_singleton_ne by done.
  by destruct (own props !! key).
Qed.

(** X11: [FormDataConsumer] inside an iterator: given [index] and a
    non-empty [source] (and no [formData] or [scopedFormData] of the
    caller's own), the render callback receives the snapshot of the form
    (the default values when nothing is watched yet) as [formData] and the
    lookup of [source] in that snapshot as [scopedFormData]. *)
Theorem FormDataConsumer_scopes_snapshot (ctx : FormContext) (props : Props)
    (source : string) :
  own props !! "formData" = None ->
  own props !! "scopedFormData" = None ->
  is_defined (prop (own props) "index") = true ->
  prop (own props) "source" = VStr source ->
  source <> EmptyString ->
  exists params scoped,
    rendered (FormDataConsumerView (FormDataConsumer ctx props)) = [params] /\
    params !! "formData" = Some (VObj (snapshot ctx)) /\
    get (VObj (snapshot ctx)) source = Normal scoped /\
    params !! "scopedFormData" = Some scoped.
Proof.
  intros Hf Hsc Hi Hs Hne.
  set (q := FormDataConsumer ctx props).
  assert (Hfd : prop (own q) "formData" = VObj (snapshot ctx)).
  { unfold q. by rewrite FormDataConsumer_formData, Hf. }
  assert (Hi' : is_defined (prop (own q) "index") = true).
  { unfold prop, q. by rewrite FormDataConsumer_lookup_other. }
  assert (Hs' : prop (own q) "source" = VStr source).
  { unfold prop, q. by rewrite FormDataConsumer_lookup_other. }
  assert (Hsc' : own q !! "scopedFormData" = None).
  { unfold q. by rewrite FormDataConsumer_lookup_other. }
  exists (params_of q), (scopedFormData_of (VObj (snapshot ctx)) source).
  split; [apply View_rendered|].
  split; [by rewrite params_of_lookup_formData, Hfd|].
  split; [apply get_scopedFormData_of|].
  rewrite params_of_unshadowed by (done || not_named).
  rewrite (literal_of_scoped q source Hi' Hs' Hne), Hfd.
  by simplify_map_eq.
Qed.

Lemma FormDataConsumer_scopes_snapshot_witness :
  (own in_iterator !! "formData" = None /\
   own in_iterator !! "scopedFormData" = None /\
   is_defined (prop (own in_iterator) "index") = true /\
   prop (own in_iterator) "source" = VStr "title" /\
   "title" <> EmptyString) /\
  exists params,
    rendered (FormDataConsumerView (FormDataConsumer edited in_iterator)) =
      [params] /\
    params !! "scopedFormData" = Some (VStr "Draft").
Proof.
  assert (H1 : own in_iterator !! "formData" = None) by reflexivity.
  assert (H2 : own in_iterator !! "scopedFormData" = None) by reflexivity.
  assert (H3 : is_defined (prop (own in_iterator) "index") = true) by reflexivity.
  assert (H4 : prop (own in_iterator) "source" = VStr "title") by reflexivity.
  assert (H5 : "title" <> EmptyString) by discriminate.
  split; [tauto|].
  destruct (FormDataConsumer_scopes_snapshot edited in_iterator "title"
              H1 H2 H3 H4 H5) as (params & scoped & Hr & _ & Hg & Hp).
  exists params. split; [exact Hr|].
  assert (Hv : get (VObj (snapshot edited)) "title" = Normal (VStr "Draft"))
    by reflexivity.
  rewrite Hp. congruence.
Defined.

(** ** The example of the doc comment *)

(** X12: the [PostEdit] example of the doc comment, under
    [FormDataConsumer] outside an iterator: it never throws and never
    warns; it renders the [TextInput] for [email], carrying the
    pass-through properties, exactly when [hasEmail] is truthy in the form
    snapshot, and otherwise returns the falsy [hasEmail] itself ([null] when
    it is [undefined]). *)
Theorem PostEdit_shows_email (ctx : FormContext) (o : gmap string value) :
  o !! "formData" = None ->
  is_defined (prop o "index") = false ->
  let out :=
    FormDataConsumerView
      (FormDataConsumer ctx {| children := PostEdit_render; own := o |}) in
  console out = [] /\
  result out =
    if truthy (prop (snapshot ctx) "hasEmail")
    then Normal (createElement "TextInput"
                   (<["source" := VStr "email"]> (rest_of o)))
    else or_null (Normal (prop (snapshot ctx) "hasEmail")).
Proof.
  intros Hf Hi out.
  set (props := {| children := PostEdit_render; own := o |}) in *.
  set (q := FormDataConsumer ctx props) in *.
  assert (Hfd : prop (own q) "formData" = VObj (snapshot ctx)).
  { unfold q. rewrite FormDataConsumer_formData. simpl. by rewrite Hf. }
  assert (Hi' : is_defined (prop (own q) "index") = false).
  { unfold prop, q. rewrite FormDataConsumer_lookup_other by done. exact Hi. }
  assert (Hh : helper q = None) by (apply helper_None; by left).
  assert (Hrest : rest_of (own q) = rest_of o).
  { apply map_eq. intros k. rewrite !rest_of_lookup.
    case_bool_decide as Hin; [reflexivity|].
    apply (FormDataConsumer_lookup_other ctx props).
    intros ->. apply Hin. named. }
  assert (Hp : params_of q = <["formData" := VObj (snapshot ctx)]> (rest_of o)).
  { by rewrite (params_of_unscoped q Hh), Hfd, Hrest. }
  assert (Hd : delete "formData" (params_of q) = rest_of o).
  { rewrite Hp. apply delete_insert_id. by rewrite rest_of_lookup. }
  assert (Hc : children q (params_of q) =
               if truthy (prop (snapshot ctx) "hasEmail")
               then Return (createElement "TextInput"
                              (<["source" := VStr "email"]> (rest_of o)))
               else Return (prop (snapshot ctx) "hasEmail")).
  { change (children q) with PostEdit_render. unfold PostEdit_render.
    rewrite Hd. replace (prop (params_of q) "formData") with (VObj (snapshot ctx))
      by (unfold prop; by rewrite params_of_lookup_formData, Hfd).
    simpl. fold (prop (snapshot ctx) "hasEmail").
    destruct (truthy _); [|reflexivity].
    unfold spread. rewrite <- insert_union_singleton_r by (by rewrite rest_of_lookup).
    reflexivity. }
  unfold out. split.
  - rewrite View_console, Hi'. by destruct (returned _).
  - rewrite View_result, Hc. by destruct (truthy _).
Qed.

Lemma PostEdit_shows_email_witness :
  (own plain !! "formData" = None /\
   is_defined (prop (own plain) "index") = false) /\
  result (FormDataConsumerView
            (FormDataConsumer with_email
               {| children := PostEdit_render; own := own plain |})) =
    Normal (createElement "TextInput"
              {[ "source" := VStr "email"; "resource" := VStr "posts" ]}).
Proof.
  assert (H1 : own plain !! "formData" = None) by reflexivity.
  assert (H2 : is_defined (prop (own plain) "index") = false) by reflexivity.
  split; [tauto|].
  destruct (PostEdit_shows_email with_email (own plain) H1 H2) as [_ Hr].
  rewrite Hr. vm_compute. reflexivity.
Defined.
